(** * ip-reverser: the client-IP resolver, the IPv4 reverser and the
      three route handlers of [app.py]

    The Python functions of [app.py] are embedded as Rocq functions.
    Strings are [string]s whose characters are the code points 0..255
    (what a WSGI server hands to the application for header values).
    A Python value that is either a [str] or [None] is a [pyval].
    Logging and exceptions are threaded through a small state-and-error
    monad [M]: the state is the list of log records emitted so far. *)

From Stdlib Require Import String Ascii List Bool Arith Lia.
Import ListNotations.

Local Open Scope list_scope.
Local Open Scope string_scope.

(** ** Python strings *)

Module PyStr.

(** [c in s] for a one-character needle [c]. *)
Fixpoint contains (c : ascii) (s : string) : bool :=
  match s with
  | EmptyString => false
  | String x s' => if Ascii.eqb x c then true else contains c s'
  end.

(** [s.split(sep)] for a one-character separator: the pieces between
    the occurrences of [sep]; a string without [sep] (the empty one as
    well) gives a one-element list. *)
Fixpoint split (sep : ascii) (s : string) : list string :=
  match s with
  | EmptyString => [EmptyString]
  | String x s' =>
      if Ascii.eqb x sep then EmptyString :: split sep s'
      else match split sep s' with
           | [] => [String x EmptyString]
           | w :: ws => String x w :: ws
           end
  end.

(** [sep.join(l)]. *)
Fixpoint join (sep : string) (l : list string) : string :=
  match l with
  | [] => EmptyString
  | [w] => w
  | w :: ws => w ++ sep ++ join sep ws
  end.

(** [c.isspace()] on the code points below 256: TAB, LF, VT, FF, CR,
    the separators FS, GS, RS, US, the space, NEL and NBSP. *)
Definition isspace (c : ascii) : bool :=
  let n := nat_of_ascii c in
  (((9 <=? n)%nat && (n <=? 13)%nat) || ((28 <=? n)%nat && (n <=? 32)%nat)
   || (n =? 133)%nat || (n =? 160)%nat)%bool.

Fixpoint lstrip (s : string) : string :=
  match s with
  | EmptyString => EmptyString
  | String x s' => if isspace x then lstrip s' else s
  end.

Fixpoint rstrip (s : string) : string :=
  match s with
  | EmptyString => EmptyString
  | String x s' =>
      match rstrip s' with
      | EmptyString => if isspace x then EmptyString else String x EmptyString
      | t => String x t
      end
  end.

(** [s.strip()]. *)
Definition strip (s : string) : string := lstrip (rstrip s).

(** Every character of [s] is white space. *)
Fixpoint all_space (s : string) : bool :=
  match s with
  | EmptyString => true
  | String x s' => isspace x && all_space s'
  end.

(** First and last character, when there is one. *)
Definition first_char (s : string) : option ascii :=
  match s with
  | EmptyString => None
  | String x _ => Some x
  end.

Fixpoint last_char (s : string) : option ascii :=
  match s with
  | EmptyString => None
  | String x EmptyString => Some x
  | String _ s' => last_char s'
  end.

(** [w] has no occurrence of [sep]. *)
Definition free (sep : ascii) (w : string) : Prop := contains sep w = false.

(** [t] is [s] without the white space at its two ends. *)
Definition trimmed_of (s t : string) : Prop :=
  (exists l r, s = l ++ t ++ r /\ all_space l = true /\ all_space r = true) /\
  (forall c, first_char t = Some c -> isspace c = false) /\
  (forall c, last_char t = Some c -> isspace c = false).

End PyStr.

(** ** Python values, log records, exceptions *)

(** A value that is a [str] or [None]. *)
Inductive pyval : Type :=
| PyNone
| PyStr (s : string).

(** Truth value of a [pyval]: [None] and the empty string are false. *)
Definition truthy (v : pyval) : bool :=
  match v with
  | PyNone => false
  | PyStr EmptyString => false
  | PyStr _ => true
  end.

(** What an f-string writes for [{v}]. *)
Definition format (v : pyval) : string :=
  match v with
  | PyNone => "None"
  | PyStr s => s
  end.

Inductive exn : Type :=
| AttributeError (message : string)
| TypeError (message : string)
| IndexError (message : string).

(** [str(e)]. *)
Definition str_exn (e : exn) : string :=
  match e with
  | AttributeError m => m
  | TypeError m => m
  | IndexError m => m
  end.

Inductive level : Type := INFO | ERROR.

Record log_record : Type := LogRecord { lvl : level; msg : string }.

Definition log : Type := list log_record.

Inductive outcome (A : Type) : Type :=
| Ret (a : A)
| Raise (e : exn).

Arguments Ret {A} a.
Arguments Raise {A} e.

(** Computations that log and may raise. *)
Definition M (A : Type) : Type := log -> outcome A * log.

Definition ret {A} (a : A) : M A := fun lg => (Ret a, lg).

Definition raise {A} (e : exn) : M A := fun lg => (Raise e, lg).

Definition bind {A B} (m : M A) (k : A -> M B) : M B :=
  fun lg =>
    match m lg with
    | (Ret a, lg') => k a lg'
    | (Raise e, lg') => (Raise e, lg')
    end.

(** [try: body / except Exception as e: handler e]. *)
Definition try_except {A} (body : M A) (handler : exn -> M A) : M A :=
  fun lg =>
    match body lg with
    | (Ret a, lg') => (Ret a, lg')
    | (Raise e, lg') => handler e lg'
    end.

Notation "x <- m ;; k" := (bind m (fun x => k))
  (at level 61, m at next level, right associativity).
Notation "m ;; k" := (bind m (fun _ => k))
  (at level 61, right associativity).

Definition logger_info (m : string) : M unit :=
  fun lg => (Ret tt, (lg ++ [LogRecord INFO m])%list).

Definition logger_error (m : string) : M unit :=
  fun lg => (Ret tt, (lg ++ [LogRecord ERROR m])%list).

(** The method call [v.split(sep)]: [None] has no such attribute. *)
Definition method_split (v : pyval) (sep : ascii) : M (list string) :=
  match v with
  | PyStr s => ret (PyStr.split sep s)
  | PyNone => raise (AttributeError "'NoneType' object has no attribute 'split'")
  end.

(** The method call [v.strip()]. *)
Definition method_strip (v : pyval) : M pyval :=
  match v with
  | PyStr s => ret (PyStr (PyStr.strip s))
  | PyNone => raise (AttributeError "'NoneType' object has no attribute 'strip'")
  end.

(** The test [c in v]. *)
Definition op_in (c : ascii) (v : pyval) : M bool :=
  match v with
  | PyStr s => ret (PyStr.contains c s)
  | PyNone => raise (TypeError "argument of type 'NoneType' is not iterable")
  end.

(** The subscript [l[i]] for [0 <= i]. *)
Definition getitem (l : list string) (i : nat) : M pyval :=
  match nth_error l i with
  | Some w => ret (PyStr w)
  | None => raise (IndexError "list index out of range")
  end.

(** ** The request *)

(** What the handlers read of the framework's [request]: the method,
    the path, the headers as the name/value pairs received, and the
    peer address [remote_addr], which may be [None]. In [app.py] the
    request is ambient; here every function that runs under a request
    takes it as an argument. *)
Record Request : Type := mkRequest {
  method : string;
  path : string;
  headers : list (string * string);
  remote_addr : pyval
}.

Definition lower_char (c : ascii) : ascii :=
  let n := nat_of_ascii c in
  if ((65 <=? n)%nat && (n <=? 90)%nat)%bool then ascii_of_nat (n + 32) else c.

Fixpoint lower (s : string) : string :=
  match s with
  | EmptyString => EmptyString
  | String c s' => String (lower_char c) (lower s')
  end.

Fixpoint lookup (name : string) (hs : list (string * string)) : option string :=
  match hs with
  | [] => None
  | (k, v) :: hs' =>
      if String.eqb (lower k) (lower name) then Some v else lookup name hs'
  end.

(** [request.headers.get(name)]: header names compare without regard
    to case; an absent header gives [None]. *)
Definition headers_get (request : Request) (name : string) : pyval :=
  match lookup name (headers request) with
  | Some v => PyStr v
  | None => PyNone
  end.

(** [request.headers.get(name, default)]. *)
Definition headers_get_default (request : Request) (name default : string) : pyval :=
  match lookup name (headers request) with
  | Some v => PyStr v
  | None => PyStr default
  end.

(** ** [get_client_ip] *)

Definition headers_to_check : list string :=
  [ "X-Forwarded-For";
    "X-Real-IP";
    "X-Forwarded";
    "X-Cluster-Client-IP";
    "CF-Connecting-IP" ].

(** The [for header in ...] loop: [Some ip] when the loop body returned
    [ip], [None] when the loop ran to its end. *)
Fixpoint for_header (request : Request) (hs : list string) : M (option pyval) :=
  match hs with
  | [] => ret None
  | header :: rest =>
      let ip := headers_get request header in
      if truthy ip then
        has_comma <- op_in "," ip ;;
        ip <- (if has_comma : bool then
                 parts <- method_split ip "," ;;
                 first <- getitem parts 0 ;;
                 method_strip first
               else ret ip) ;;
        logger_info ("Found IP in " ++ header ++ ": " ++ format ip) ;;
        ret (Some ip)
      else for_header request rest
  end.

Definition get_client_ip (request : Request) : M pyval :=
  found <- for_header request headers_to_check ;;
  match found with
  | Some ip => ret ip
  | None =>
      let ip := remote_addr request in
      logger_info ("Using remote_addr: " ++ format ip) ;;
      ret ip
  end.

(** ** [reverse_ip] *)

(** The body of the [try] block of [reverse_ip]. *)
Definition reverse_ip_try (ip_address : pyval) : M string :=
  segments <- method_split ip_address "." ;;
  if (length segments =? 4)%nat then
    let reversed_segments := rev segments in
    ret (PyStr.join "." reversed_segments)
  else
    ret ("Invalid IP format: " ++ format ip_address).

Definition reverse_ip (ip_address : pyval) : M string :=
  try_except (reverse_ip_try ip_address)
    (fun e =>
       logger_error ("Error reversing IP " ++ format ip_address ++ ": " ++ str_exn e) ;;
       ret ("Error processing IP: " ++ format ip_address)).

(** ** The route handlers *)

(** A JSON object with string or null members, and a response: the
    body and the status code. *)
Definition json : Type := list (string * pyval).

Definition response : Type := (json * nat)%type.

Definition jsonify (d : json) : M json := ret d.

(** Route [/]. *)
Definition handle_request (request : Request) : M response :=
  client_ip <- get_client_ip request ;;
  reversed_ip <- reverse_ip client_ip ;;
  let response_data :=
    [ ("original_ip", client_ip);
      ("reversed_ip", PyStr reversed_ip);
      ("method", PyStr (method request));
      ("path", PyStr (path request));
      ("user_agent", headers_get_default request "User-Agent" "Unknown") ] in
  logger_info ("Request from " ++ format client_ip ++ " -> Reversed: " ++ reversed_ip) ;;
  body <- jsonify response_data ;;
  ret (body, 200).

(** Route [/health]. *)
Definition health_check (request : Request) : M response :=
  body <- jsonify [ ("status", PyStr "healthy"); ("service", PyStr "ip-reverse-app") ] ;;
  ret (body, 200).

(** Route [/<path:path>]; [path] is the part matched after the slash. *)
Definition catch_all (path : string) (request : Request) : M response :=
  client_ip <- get_client_ip request ;;
  reversed_ip <- reverse_ip client_ip ;;
  let response_data :=
    [ ("original_ip", client_ip);
      ("reversed_ip", PyStr reversed_ip);
      ("method", PyStr (method request));
      ("path", PyStr ("/" ++ path));
      ("user_agent", headers_get_default request "User-Agent" "Unknown") ] in
  logger_info ("Request to /" ++ path ++ " from " ++ format client_ip
               ++ " -> Reversed: " ++ reversed_ip) ;;
  body <- jsonify response_data ;;
  ret (body, 200).

(** What the loop body of [get_client_ip] makes of a matched header
    value [v] (a non-empty string): lines 27-28 of [app.py] in closed
    form. *)
Definition matched_ip (v : string) : string :=
  if PyStr.contains "," v
  then PyStr.strip (hd EmptyString (PyStr.split "," v))
  else v.

(** No candidate of [hs] is present with a non-empty value. *)
Definition none_present (request : Request) (hs : list string) : Prop :=
  forall h, In h hs -> truthy (headers_get request h) = false.

(** ** Sample requests *)

(** No proxy header and no peer address. *)
Definition no_ip_request : Request :=
  mkRequest "GET" "/" [] PyNone.

(** Two candidate headers, the later-listed one received first. *)
Definition both_headers_request : Request :=
  mkRequest "GET" "/"
    [("X-Real-IP", "1.1.1.1"); ("X-Forwarded-For", "9.9.9.9")] (PyStr "10.0.0.1").

(** An empty first candidate and a later one with a value. *)
Definition empty_first_request : Request :=
  mkRequest "GET" "/"
    [("X-Forwarded-For", ""); ("CF-Connecting-IP", "7.7.7.7");
     ("X-Real-IP", "1.1.1.1")] (PyStr "10.0.0.1").

(** A forwarding chain. *)
Definition chain_request : Request :=
  mkRequest "GET" "/"
    [("X-Forwarded-For", "203.0.113.5, 70.41.3.18")] (PyStr "10.0.0.1").

(** A value without comma, with spaces around it. *)
Definition padded_request : Request :=
  mkRequest "GET" "/" [("X-Forwarded-For", " 1.2.3.4 ")] (PyStr "10.0.0.1").

(** No proxy header, peer address known. *)
Definition peer_request : Request :=
  mkRequest "POST" "/foo/bar" [("User-Agent", "curl/8.0")] (PyStr "5.6.7.8").

(** A first comma-separated element made of white space only. *)
Definition blank_first_request : Request :=
  mkRequest "GET" "/"
    [("X-Forwarded-For", " , 1.2.3.4"); ("X-Real-IP", "1.1.1.1")] (PyStr "10.0.0.1").

(** An empty first candidate, the second one holding a dotted quad. *)
Definition real_ip_request : Request :=
  mkRequest "PUT" "/"
    [("User-Agent", "probe"); ("X-Forwarded-For", ""); ("X-Real-IP", "198.51.100.7")]
    PyNone.

(** ** Notions used in the statements *)

(** [s.count(c)] for a one-character needle [c]. *)
Fixpoint count (c : ascii) (s : string) : nat :=
  match s with
  | EmptyString => 0
  | String x s' => if Ascii.eqb x c then S (count c s') else count c s'
  end.

(** Sum of the lengths of the pieces, each counted with one separator. *)
Definition padded_length (l : list string) : nat :=
  list_sum (map (fun w => S (String.length w)) l).

(** The request [r] received on path [p]. *)
Definition with_path (p : string) (r : Request) : Request :=
  mkRequest (method r) p (headers r) (remote_addr r).

(** The record was logged at level ERROR. *)
Definition is_error (x : log_record) : bool :=
  match lvl x with
  | ERROR => true
  | INFO => false
  end.

(** * Facts about the string operations *)

Module PyStrFacts.
Import PyStr.


Lemma contains_cons_false sep x s :
  free sep (String x s) -> Ascii.eqb x sep = false /\ free sep s.
Proof.
  unfold free. simpl. destruct (Ascii.eqb x sep); [discriminate | auto].
Qed.

Lemma contains_app sep a b :
  contains sep (a ++ b) = (contains sep a || contains sep b)%bool.
Proof.
  induction a as [|x a IH]; simpl; [reflexivity|].
  destruct (Ascii.eqb x sep); [reflexivity | exact IH].
Qed.

Lemma split_inv sep s : exists w ws, split sep s = w :: ws.
Proof.
  destruct s as [|x s]; simpl; [eauto|].
  destruct (Ascii.eqb x sep); [eauto|].
  destruct (split sep s); eauto.
Qed.

Lemma split_not_nil sep s : split sep s <> [].
Proof.
  destruct (split_inv sep s) as (w & ws & E). rewrite E. discriminate.
Qed.

Lemma split_free sep s : free sep s -> split sep s = [s].
Proof.
  unfold free. induction s as [|x s IH]; simpl; [reflexivity|].
  destruct (Ascii.eqb x sep); [discriminate|].
  intros H. rewrite (IH H). reflexivity.
Qed.

Lemma split_app_sep sep a s :
  free sep a -> split sep (a ++ String sep s) = a :: split sep s.
Proof.
  unfold free. induction a as [|x a IH]; simpl.
  - intros _. rewrite Ascii.eqb_refl. reflexivity.
  - destruct (Ascii.eqb x sep); [discriminate|].
    intros H. rewrite (IH H). reflexivity.
Qed.

Lemma split_segments_free sep s :
  Forall (fun w => free sep w) (split sep s).
Proof.
  unfold free. induction s as [|x s IH]; simpl.
  - repeat constructor.
  - destruct (Ascii.eqb x sep) eqn:E.
    + constructor; [reflexivity | exact IH].
    + destruct (split sep s) as [|w ws].
      * repeat constructor. simpl. rewrite E. reflexivity.
      * inversion IH; subst. constructor; [|assumption].
        simpl. rewrite E. assumption.
Qed.

Lemma join_cons_char sep x w ws :
  join sep (String x w :: ws) = String x (join sep (w :: ws)).
Proof.
  destruct ws; reflexivity.
Qed.

Lemma join_cons2 sep w w' ws :
  join sep (w :: w' :: ws) = w ++ sep ++ join sep (w' :: ws).
Proof. reflexivity. Qed.

(** Joining the pieces of a split gives the string back. *)
Lemma join_split sep s : join (String sep EmptyString) (split sep s) = s.
Proof.
  induction s as [|x s IH]; simpl; [reflexivity|].
  destruct (split_inv sep s) as (w & ws & E). rewrite E in *.
  destruct (Ascii.eqb x sep) eqn:Ex.
  - apply Ascii.eqb_eq in Ex. subst x.
    rewrite join_cons2, IH. reflexivity.
  - rewrite join_cons_char, IH. reflexivity.
Qed.

(** Splitting a join of separator-free pieces gives the pieces back. *)
Lemma split_join sep l :
  l <> [] -> Forall (fun w => free sep w) l ->
  split sep (join (String sep EmptyString) l) = l.
Proof.
  induction l as [|w l IH]; [congruence|].
  intros _ H. inversion H as [|? ? Hw Hl]; subst.
  destruct l as [|w' l].
  - simpl. apply split_free. assumption.
  - rewrite join_cons2.
    change (String sep EmptyString ++ join (String sep EmptyString) (w' :: l))
      with (String sep (join (String sep EmptyString) (w' :: l))).
    rewrite split_app_sep by assumption.
    rewrite IH; [reflexivity | discriminate | assumption].
Qed.

(** *** Stripping *)

Lemma append_assoc (a b c : string) : (a ++ b) ++ c = a ++ (b ++ c).
Proof.
  induction a as [|x a IH]; simpl; [reflexivity | now rewrite IH].
Qed.

Lemma append_empty_r (a : string) : a ++ EmptyString = a.
Proof.
  induction a as [|x a IH]; simpl; [reflexivity | now rewrite IH].
Qed.

Lemma lstrip_decompose s :
  exists l, s = l ++ lstrip s /\ all_space l = true.
Proof.
  induction s as [|x s (l & E & Hl)]; simpl.
  - exists EmptyString. auto.
  - destruct (isspace x) eqn:Hx.
    + exists (String x l). simpl. rewrite Hx, Hl, <- E. auto.
    + exists EmptyString. auto.
Qed.

Lemma rstrip_decompose s :
  exists r, s = rstrip s ++ r /\ all_space r = true.
Proof.
  induction s as [|x s (r & E & Hr)]; simpl.
  - exists EmptyString. auto.
  - destruct (rstrip s) as [|y t] eqn:Et.
    + simpl in E. subst r. destruct (isspace x) eqn:Hx.
      * exists (String x s). simpl. rewrite Hx, Hr. auto.
      * exists s. auto.
    + exists r. simpl. simpl in E. rewrite <- E. auto.
Qed.

(** [strip] removes a run of white space at each end, and nothing else. *)
Lemma strip_decompose s :
  exists l r, s = l ++ strip s ++ r /\ all_space l = true /\ all_space r = true.
Proof.
  destruct (rstrip_decompose s) as (r & Er & Hr).
  destruct (lstrip_decompose (rstrip s)) as (l & El & Hl).
  exists l, r. unfold strip. rewrite <- append_assoc, <- El. auto.
Qed.

Lemma lstrip_first s c : first_char (lstrip s) = Some c -> isspace c = false.
Proof.
  induction s as [|x s IH]; simpl; [discriminate|].
  destruct (isspace x) eqn:Hx; [exact IH|].
  simpl. intros [= <-]. exact Hx.
Qed.

Lemma rstrip_last s c : last_char (rstrip s) = Some c -> isspace c = false.
Proof.
  induction s as [|x s IH]; simpl; [discriminate|].
  destruct (rstrip s) as [|y t].
  - destruct (isspace x) eqn:Hx; simpl; [discriminate|].
    intros [= <-]. exact Hx.
  - exact IH.
Qed.

Lemma lstrip_last s c : last_char (lstrip s) = Some c -> last_char s = Some c.
Proof.
  induction s as [|x s IH]; simpl lstrip; [discriminate|].
  destruct (isspace x); [|auto].
  intros H. specialize (IH H). destruct s; [discriminate | exact IH].
Qed.

(** The result of [strip] neither starts nor ends with white space. *)
Lemma strip_ends s :
  (forall c, first_char (strip s) = Some c -> isspace c = false) /\
  (forall c, last_char (strip s) = Some c -> isspace c = false).
Proof.
  unfold strip. split; intros c H.
  - exact (lstrip_first _ _ H).
  - apply (rstrip_last s). apply lstrip_last. exact H.
Qed.

Lemma strip_trimmed s : trimmed_of s (strip s).
Proof.
  split; [apply strip_decompose | apply strip_ends].
Qed.

(** The first element of a split is the part before the first
    separator. *)
Lemma split_first sep s :
  contains sep s = true ->
  exists first rest,
    s = first ++ String sep rest /\ free sep first /\
    split sep s = first :: split sep rest.
Proof.
  unfold free. induction s as [|x s IH]; simpl; [discriminate|].
  destruct (Ascii.eqb x sep) eqn:Ex.
  - intros _. apply Ascii.eqb_eq in Ex. subst x.
    exists EmptyString, s. auto.
  - intros H. destruct (IH H) as (first & rest & E & Hf & Hs).
    exists (String x first), rest. simpl. rewrite Ex, Hs, <- E. auto.
Qed.

End PyStrFacts.

(** * The resolver *)

Section Resolver.

Import PyStr PyStrFacts.

Variable request : Request.

Lemma truthy_str v : v <> EmptyString -> truthy (PyStr v) = true.
Proof. destruct v; [congruence | reflexivity]. Qed.

Lemma truthy_inv v : truthy v = true -> exists s, v = PyStr s /\ s <> EmptyString.
Proof.
  destruct v as [|[|c s]]; simpl; try discriminate.
  intros _. eexists. split; [reflexivity | discriminate].
Qed.

Lemma for_header_cons_hit h rest v lg :
  headers_get request h = PyStr v -> v <> EmptyString ->
  for_header request (h :: rest) lg
  = (Ret (Some (PyStr (matched_ip v))),
     (lg ++ [LogRecord INFO ("Found IP in " ++ h ++ ": " ++ matched_ip v)])%list).
Proof.
  intros Hh Hv. simpl for_header. rewrite Hh, (truthy_str _ Hv).
  unfold bind, op_in, method_split, getitem, method_strip, matched_ip, ret.
  destruct (contains "," v); [|reflexivity].
  destruct (split_inv "," v) as (w & ws & E). rewrite E. reflexivity.
Qed.

Lemma for_header_cons_miss h rest lg :
  truthy (headers_get request h) = false ->
  for_header request (h :: rest) lg = for_header request rest lg.
Proof.
  intros H. simpl. rewrite H. reflexivity.
Qed.

(** The loop skips the candidates that are absent or empty ... *)
Lemma for_header_skip pre post lg :
  none_present request pre ->
  for_header request (pre ++ post) lg = for_header request post lg.
Proof.
  induction pre as [|h pre IH]; intros H; [reflexivity|].
  rewrite <- app_comm_cons, for_header_cons_miss.
  - apply IH. intros h' Hin. apply H. now right.
  - apply H. now left.
Qed.

(** ... and returns at the first one that is present and non-empty. *)
Lemma for_header_hit pre h post v lg :
  none_present request pre ->
  headers_get request h = PyStr v -> v <> EmptyString ->
  for_header request (pre ++ h :: post) lg
  = (Ret (Some (PyStr (matched_ip v))),
     (lg ++ [LogRecord INFO ("Found IP in " ++ h ++ ": " ++ matched_ip v)])%list).
Proof.
  intros Hpre Hh Hv. rewrite for_header_skip by assumption.
  now apply for_header_cons_hit.
Qed.

Lemma for_header_none hs lg :
  none_present request hs -> for_header request hs lg = (Ret None, lg).
Proof.
  intros H. rewrite <- (app_nil_r hs), for_header_skip by assumption.
  reflexivity.
Qed.

Lemma get_client_ip_hit pre h post v lg :
  headers_to_check = (pre ++ h :: post)%list ->
  none_present request pre ->
  headers_get request h = PyStr v -> v <> EmptyString ->
  get_client_ip request lg
  = (Ret (PyStr (matched_ip v)),
     (lg ++ [LogRecord INFO ("Found IP in " ++ h ++ ": " ++ matched_ip v)])%list).
Proof.
  intros E Hpre Hh Hv. unfold get_client_ip, bind.
  rewrite E, (for_header_hit pre h post v lg Hpre Hh Hv). reflexivity.
Qed.

Lemma get_client_ip_fallback lg :
  none_present request headers_to_check ->
  get_client_ip request lg
  = (Ret (remote_addr request),
     (lg ++ [LogRecord INFO ("Using remote_addr: " ++ format (remote_addr request))])%list).
Proof.
  intros H. unfold get_client_ip, bind.
  rewrite (for_header_none _ lg H). reflexivity.
Qed.

(** The loop never raises. *)
Lemma for_header_returns hs lg :
  exists found lg', for_header request hs lg = (Ret found, lg').
Proof.
  induction hs as [|h hs IH]; [simpl; unfold ret; eauto|].
  destruct (truthy (headers_get request h)) eqn:T.
  - destruct (truthy_inv _ T) as (v & Hv & Hne).
    rewrite (for_header_cons_hit h hs v lg Hv Hne). eauto.
  - rewrite for_header_cons_miss by assumption. exact IH.
Qed.

Lemma get_client_ip_returns lg :
  exists ip lg', get_client_ip request lg = (Ret ip, lg').
Proof.
  unfold get_client_ip, bind.
  destruct (for_header_returns headers_to_check lg) as ([ip|] & lg' & E);
    rewrite E; unfold ret, logger_info; eauto.
Qed.

End Resolver.

(** * The reverser *)

Section Reverser.

Import PyStr PyStrFacts.

Lemma reverse_ip_four s lg :
  length (split "." s) = 4 ->
  reverse_ip (PyStr s) lg = (Ret (join "." (rev (split "." s))), lg).
Proof.
  intros H. unfold reverse_ip, try_except, reverse_ip_try, bind, method_split, ret.
  rewrite H. reflexivity.
Qed.

Lemma reverse_ip_not_four s lg :
  length (split "." s) <> 4 ->
  reverse_ip (PyStr s) lg = (Ret ("Invalid IP format: " ++ s), lg).
Proof.
  intros H. unfold reverse_ip, try_except, reverse_ip_try, bind, method_split, ret.
  apply Nat.eqb_neq in H. rewrite H. reflexivity.
Qed.

Lemma reverse_ip_try_none lg :
  reverse_ip_try PyNone lg
  = (Raise (AttributeError "'NoneType' object has no attribute 'split'"), lg).
Proof. reflexivity. Qed.

Lemma reverse_ip_none lg :
  reverse_ip PyNone lg
  = (Ret "Error processing IP: None",
     (lg ++ [LogRecord ERROR
               "Error reversing IP None: 'NoneType' object has no attribute 'split'"])%list).
Proof. reflexivity. Qed.

(** The try block raises on [None] only. *)
Lemma reverse_ip_try_str s lg :
  exists out, reverse_ip_try (PyStr s) lg = (Ret out, lg).
Proof.
  unfold reverse_ip_try, bind, method_split, ret.
  destruct (length (split "." s) =? 4)%nat; eauto.
Qed.

Lemma reverse_ip_returns v lg :
  exists out lg', reverse_ip v lg = (Ret out, lg').
Proof.
  destruct v as [|s].
  - rewrite reverse_ip_none. eauto.
  - destruct (Nat.eq_dec (length (split "." s)) 4) as [E|E].
    + rewrite reverse_ip_four by assumption. eauto.
    + rewrite reverse_ip_not_four by assumption. eauto.
Qed.

Lemma split_dotted_quad a b c d :
  free "." a -> free "." b -> free "." c -> free "." d ->
  split "." (a ++ "." ++ b ++ "." ++ c ++ "." ++ d) = [a; b; c; d].
Proof.
  intros Ha Hb Hc Hd.
  change (split "." (a ++ String "." (b ++ String "." (c ++ String "." d)))
          = [a; b; c; d]).
  rewrite !split_app_sep by assumption.
  rewrite split_free by assumption. reflexivity.
Qed.

(** Every string with four segments is [a.b.c.d] for its segments. *)
Lemma four_segments_shape s :
  length (split "." s) = 4 ->
  exists a b c d,
    split "." s = [a; b; c; d] /\ s = a ++ "." ++ b ++ "." ++ c ++ "." ++ d.
Proof.
  intros H. pose proof (join_split "." s) as J.
  destruct (split "." s) as [|a [|b [|c [|d [|? ?]]]]]; try discriminate.
  exists a, b, c, d. split; [reflexivity|]. symmetry. exact J.
Qed.

End Reverser.

(** * The claims *)

Import PyStr PyStrFacts.

(** C1. For every string made of four dot-separated segments
    [a.b.c.d], whatever the segments are (a segment has no dot, it need
    not be a number), [reverse_ip] returns [d.c.b.a]: the segments in
    reverse order, joined with dots. Nothing is logged. *)
Theorem reverse_ip_dotted_quad (a b c d : string) (lg : log) :
  free "." a -> free "." b -> free "." c -> free "." d ->
  reverse_ip (PyStr (a ++ "." ++ b ++ "." ++ c ++ "." ++ d)) lg
  = (Ret (d ++ "." ++ c ++ "." ++ b ++ "." ++ a), lg).
Proof.
  intros Ha Hb Hc Hd.
  pose proof (split_dotted_quad a b c d Ha Hb Hc Hd) as E.
  rewrite reverse_ip_four by (rewrite E; reflexivity).
  rewrite E. reflexivity.
Qed.

Lemma reverse_ip_dotted_quad_witness :
  reverse_ip (PyStr "192.168.x.") [] = (Ret ".x.168.192", []).
Proof.
  apply (reverse_ip_dotted_quad "192" "168" "x" "" []); reflexivity.
Defined.

(** C2. For every string whose split on the dot does not give four
    segments (the empty string is one: it gives one segment),
    [reverse_ip] returns exactly ["Invalid IP format: "] followed by the
    input, and logs nothing. *)
Theorem reverse_ip_invalid_format (s : string) (lg : log) :
  length (split "." s) <> 4 ->
  reverse_ip (PyStr s) lg = (Ret ("Invalid IP format: " ++ s), lg).
Proof. apply reverse_ip_not_four. Qed.

Lemma reverse_ip_invalid_format_witness :
  reverse_ip (PyStr "") [] = (Ret "Invalid IP format: ", []).
Proof.
  apply (reverse_ip_invalid_format "" []). simpl. lia.
Defined.

(** C3. Round trip: for every string [x] with exactly four
    dot-separated segments, reversing the result of reversing [x] gives
    [x] back. *)
Theorem reverse_ip_round_trip (x : string) (lg : log) :
  length (split "." x) = 4 ->
  (y <- reverse_ip (PyStr x) ;; reverse_ip (PyStr y)) lg = (Ret x, lg).
Proof.
  intros H. unfold bind. rewrite reverse_ip_four by assumption.
  assert (E : split "." (join "." (rev (split "." x))) = rev (split "." x)).
  { apply split_join.
    - intros N. apply (f_equal (@length string)) in N.
      rewrite length_rev, H in N. discriminate.
    - apply Forall_rev, split_segments_free. }
  rewrite reverse_ip_four by (rewrite E, length_rev; assumption).
  rewrite E, rev_involutive, join_split. reflexivity.
Qed.

Lemma reverse_ip_round_trip_witness :
  (y <- reverse_ip (PyStr "10.0.a.1") ;; reverse_ip (PyStr y)) []
  = (Ret "10.0.a.1", []).
Proof.
  apply (reverse_ip_round_trip "10.0.a.1" []). reflexivity.
Defined.

Ltac none_present_tac :=
  let h := fresh "h" in
  let Hin := fresh "Hin" in
  intros h Hin; simpl in Hin;
  repeat (destruct Hin as [<-|Hin]; [reflexivity|]);
  contradiction.

(** C4 (as stated, refuted). With no candidate header and no peer
    address the resolver returns [None]; [reverse_ip] then does not
    answer with the malformed-format message: [None] has no [split],
    the fault is caught and the answer is the internal-fault message. *)
Lemma missing_ip_not_invalid_format :
  none_present no_ip_request headers_to_check /\
  remote_addr no_ip_request = PyNone /\
  fst (get_client_ip no_ip_request []) = Ret PyNone /\
  fst ((ip <- get_client_ip no_ip_request ;; reverse_ip ip) [])
    = Ret "Error processing IP: None" /\
  fst ((ip <- get_client_ip no_ip_request ;; reverse_ip ip) [])
    <> Ret ("Invalid IP format: " ++ format PyNone) /\
  prefix "Invalid IP format: " "Error processing IP: None" = false.
Proof.
  split; [none_present_tac|].
  do 3 (split; [reflexivity|]).
  split; [discriminate | reflexivity].
Qed.

(** C4 (amended). When no candidate header matched and the peer address
    is [None], the resolver returns [None] and the reversal of that
    value returns the internal-fault message
    ["Error processing IP: None"]: the call of [split] on [None] raises,
    the handler logs the fault at level ERROR and returns the message
    with the null value written as [None]. *)
Theorem missing_ip_error_message (r : Request) (lg : log) :
  none_present r headers_to_check ->
  remote_addr r = PyNone ->
  get_client_ip r lg
    = (Ret PyNone, (lg ++ [LogRecord INFO "Using remote_addr: None"])%list) /\
  (ip <- get_client_ip r ;; reverse_ip ip) lg
    = (Ret ("Error processing IP: " ++ format PyNone),
       ((lg ++ [LogRecord INFO "Using remote_addr: None"])
        ++ [LogRecord ERROR
              "Error reversing IP None: 'NoneType' object has no attribute 'split'"])%list).
Proof.
  intros H E. unfold bind.
  rewrite (get_client_ip_fallback r lg H), E. split; reflexivity.
Qed.

Lemma missing_ip_error_message_witness :
  fst ((ip <- get_client_ip no_ip_request ;; reverse_ip ip) [])
  = Ret "Error processing IP: None".
Proof.
  rewrite (proj2 (missing_ip_error_message no_ip_request []
                    ltac:(none_present_tac) eq_refl)).
  reflexivity.
Defined.

(** C5. Header priority. The candidates are inspected in the order
    X-Forwarded-For, X-Real-IP, X-Forwarded, X-Cluster-Client-IP,
    CF-Connecting-IP, and the resolver answers from the first one that
    is present with a non-empty value [v], whatever the later ones hold:
    it returns [v] itself (its first comma-separated element, stripped,
    when [v] has a comma). In particular every request with
    X-Forwarded-For: 9.9.9.9 and X-Real-IP: 1.1.1.1 resolves to
    9.9.9.9. *)
Theorem header_priority :
  headers_to_check
    = [ "X-Forwarded-For"; "X-Real-IP"; "X-Forwarded";
        "X-Cluster-Client-IP"; "CF-Connecting-IP" ] /\
  (forall (r : Request) (pre post : list string) (h v : string) (lg : log),
      headers_to_check = (pre ++ h :: post)%list ->
      none_present r pre ->
      headers_get r h = PyStr v -> v <> "" ->
      fst (get_client_ip r lg)
      = Ret (PyStr (if contains "," v
                    then strip (hd "" (split "," v))
                    else v))) /\
  (forall (r : Request) (lg : log),
      headers_get r "X-Forwarded-For" = PyStr "9.9.9.9" ->
      headers_get r "X-Real-IP" = PyStr "1.1.1.1" ->
      fst (get_client_ip r lg) = Ret (PyStr "9.9.9.9")).
Proof.
  split; [reflexivity|]. split.
  - intros r pre post h v lg E Hpre Hh Hv.
    rewrite (get_client_ip_hit r pre h post v lg E Hpre Hh Hv). reflexivity.
  - intros r lg Hx _.
    rewrite (get_client_ip_hit r [] "X-Forwarded-For" _ "9.9.9.9" lg eq_refl);
      [reflexivity | intros ? [] | assumption | discriminate].
Qed.

Lemma header_priority_witness :
  fst (get_client_ip empty_first_request []) = Ret (PyStr "1.1.1.1") /\
  fst (get_client_ip both_headers_request []) = Ret (PyStr "9.9.9.9").
Proof.
  split.
  - apply (proj1 (proj2 header_priority) empty_first_request
             ["X-Forwarded-For"] ["X-Forwarded"; "X-Cluster-Client-IP"; "CF-Connecting-IP"]
             "X-Real-IP" "1.1.1.1" []);
      [reflexivity | none_present_tac | reflexivity | discriminate].
  - apply (proj2 (proj2 header_priority) both_headers_request []); reflexivity.
Defined.

(** C6. Comma handling. When the value [v] of the first matching header
    contains a comma, the resolver returns the first comma-separated
    element of [v] (the part before the first comma) without the white
    space at its two ends. The X-Forwarded-For value
    ["203.0.113.5, 70.41.3.18"] resolves to ["203.0.113.5"]. *)
Theorem comma_first_element :
  (forall (r : Request) (pre post : list string) (h v : string) (lg : log),
      headers_to_check = (pre ++ h :: post)%list ->
      none_present r pre ->
      headers_get r h = PyStr v -> v <> "" ->
      contains "," v = true ->
      exists first rest,
        v = first ++ "," ++ rest /\ free "," first /\
        trimmed_of first (strip first) /\
        fst (get_client_ip r lg) = Ret (PyStr (strip first))) /\
  (forall (r : Request) (lg : log),
      headers_get r "X-Forwarded-For" = PyStr "203.0.113.5, 70.41.3.18" ->
      fst (get_client_ip r lg) = Ret (PyStr "203.0.113.5")).
Proof.
  split.
  - intros r pre post h v lg E Hpre Hh Hv Hc.
    destruct (split_first "," v Hc) as (first & rest & Ev & Hf & Hs).
    exists first, rest. repeat split; try assumption; try apply strip_trimmed.
    rewrite (get_client_ip_hit r pre h post v lg E Hpre Hh Hv).
    unfold matched_ip. rewrite Hc, Hs. reflexivity.
  - intros r lg Hx.
    rewrite (get_client_ip_hit r [] "X-Forwarded-For" _
               "203.0.113.5, 70.41.3.18" lg eq_refl);
      [reflexivity | intros ? [] | assumption | discriminate].
Qed.

Lemma comma_first_element_witness :
  (exists first rest,
      "203.0.113.5, 70.41.3.18" = first ++ "," ++ rest /\ free "," first /\
      trimmed_of first (strip first) /\
      fst (get_client_ip chain_request []) = Ret (PyStr (strip first))) /\
  fst (get_client_ip chain_request []) = Ret (PyStr "203.0.113.5").
Proof.
  split.
  - apply (proj1 comma_first_element chain_request
             [] ["X-Real-IP"; "X-Forwarded"; "X-Cluster-Client-IP"; "CF-Connecting-IP"]
             "X-Forwarded-For" "203.0.113.5, 70.41.3.18" []);
      [reflexivity | none_present_tac | reflexivity | discriminate | reflexivity].
  - apply (proj2 comma_first_element chain_request []). reflexivity.
Defined.

(** C7. Fallback. When none of the five candidate headers is present
    with a non-empty value, the resolver returns the peer address
    [remote_addr] as it is (a string, untouched, or [None]), and logs
    that it did. *)
Theorem fallback_remote_addr (r : Request) (lg : log) :
  none_present r headers_to_check ->
  get_client_ip r lg
  = (Ret (remote_addr r),
     (lg ++ [LogRecord INFO ("Using remote_addr: " ++ format (remote_addr r))])%list).
Proof. apply get_client_ip_fallback. Qed.

Lemma fallback_remote_addr_witness :
  get_client_ip peer_request []
  = (Ret (PyStr "5.6.7.8"), [LogRecord INFO "Using remote_addr: 5.6.7.8"]).
Proof.
  apply (fallback_remote_addr peer_request []). none_present_tac.
Defined.

(** C8. Totality of the reversal. For every input (a string, and
    [None] as well) [reverse_ip] returns a string and raises nothing;
    on a string the try block itself does not raise; and whenever the
    try block raises, the fault is caught: it is logged at level ERROR
    and the result is ["Error processing IP: "] followed by the
    input. *)
Theorem reverse_ip_total :
  (forall (v : pyval) (lg : log),
      exists out lg', reverse_ip v lg = (Ret out, lg')) /\
  (forall (s : string) (lg : log),
      exists out, reverse_ip_try (PyStr s) lg = (Ret out, lg) /\
                  reverse_ip (PyStr s) lg = (Ret out, lg)) /\
  (forall (v : pyval) (lg lg' : log) (e : exn),
      reverse_ip_try v lg = (Raise e, lg') ->
      reverse_ip v lg
      = (Ret ("Error processing IP: " ++ format v),
         (lg' ++ [LogRecord ERROR
                    ("Error reversing IP " ++ format v ++ ": " ++ str_exn e)])%list)).
Proof.
  split; [exact reverse_ip_returns|]. split.
  - intros s lg. destruct (reverse_ip_try_str s lg) as (out & E).
    exists out. split; [exact E|].
    unfold reverse_ip, try_except. rewrite E. reflexivity.
  - intros v lg lg' e E. unfold reverse_ip, try_except. rewrite E. reflexivity.
Qed.

Lemma reverse_ip_total_witness :
  reverse_ip PyNone []
  = (Ret "Error processing IP: None",
     [LogRecord ERROR
        "Error reversing IP None: 'NoneType' object has no attribute 'split'"]).
Proof.
  apply (proj2 (proj2 reverse_ip_total) PyNone [] []
           (AttributeError "'NoneType' object has no attribute 'split'")).
  reflexivity.
Defined.

(** C9. Every run of one of the three handlers (root, health,
    catch-all), on any request (any method, path, headers and peer
    address, the absent one as well), returns a response and raises
    nothing, and the status of that response is 200. *)
Theorem handlers_status_200 :
  (forall (r : Request) (lg : log),
      exists body lg', handle_request r lg = (Ret (body, 200), lg')) /\
  (forall (r : Request) (lg : log),
      exists body lg', health_check r lg = (Ret (body, 200), lg')) /\
  (forall (p : string) (r : Request) (lg : log),
      exists body lg', catch_all p r lg = (Ret (body, 200), lg')).
Proof.
  split; [|split].
  - intros r lg. unfold handle_request, bind.
    destruct (get_client_ip_returns r lg) as (ip & lg1 & E1). rewrite E1.
    destruct (reverse_ip_returns ip lg1) as (out & lg2 & E2). rewrite E2.
    unfold logger_info, jsonify, ret. eauto.
  - intros r lg. unfold health_check, bind, jsonify, ret. eauto.
  - intros p r lg. unfold catch_all, bind.
    destruct (get_client_ip_returns r lg) as (ip & lg1 & E1). rewrite E1.
    destruct (reverse_ip_returns ip lg1) as (out & lg2 & E2). rewrite E2.
    unfold logger_info, jsonify, ret. eauto.
Qed.

(** C10. When the value [v] of the first matching candidate header has
    no comma, the resolver returns [v] as it is: nothing is stripped
    (the value [" 1.2.3.4 "] keeps the space at each end). *)
Theorem no_comma_verbatim
    (r : Request) (pre post : list string) (h v : string) (lg : log) :
  headers_to_check = (pre ++ h :: post)%list ->
  none_present r pre ->
  headers_get r h = PyStr v -> v <> "" ->
  contains "," v = false ->
  get_client_ip r lg
  = (Ret (PyStr v), (lg ++ [LogRecord INFO ("Found IP in " ++ h ++ ": " ++ v)])%list).
Proof.
  intros E Hpre Hh Hv Hc.
  rewrite (get_client_ip_hit r pre h post v lg E Hpre Hh Hv).
  unfold matched_ip. rewrite Hc. reflexivity.
Qed.

Lemma no_comma_verbatim_witness :
  get_client_ip padded_request []
  = (Ret (PyStr " 1.2.3.4 "),
     [LogRecord INFO "Found IP in X-Forwarded-For:  1.2.3.4 "]).
Proof.
  apply (no_comma_verbatim padded_request
           [] ["X-Real-IP"; "X-Forwarded"; "X-Cluster-Client-IP"; "CF-Connecting-IP"]
           "X-Forwarded-For" " 1.2.3.4 " []);
    [reflexivity | none_present_tac | reflexivity | discriminate | reflexivity].
Defined.

(** * Runs of the handlers *)

Example root_forwarded_for :
  fst (handle_request (mkRequest "GET" "/" [("X-Forwarded-For", "1.2.3.4")] PyNone) [])
  = Ret ([ ("original_ip", PyStr "1.2.3.4");
           ("reversed_ip", PyStr "4.3.2.1");
           ("method", PyStr "GET");
           ("path", PyStr "/");
           ("user_agent", PyStr "Unknown") ], 200).
Proof. reflexivity. Qed.

Example catch_all_peer :
  fst (catch_all "foo/bar" peer_request [])
  = Ret ([ ("original_ip", PyStr "5.6.7.8");
           ("reversed_ip", PyStr "8.7.6.5");
           ("method", PyStr "POST");
           ("path", PyStr "/foo/bar");
           ("user_agent", PyStr "curl/8.0") ], 200).
Proof. reflexivity. Qed.

Example root_no_ip :
  fst (handle_request no_ip_request [])
  = Ret ([ ("original_ip", PyNone);
           ("reversed_ip", PyStr "Error processing IP: None");
           ("method", PyStr "GET");
           ("path", PyStr "/");
           ("user_agent", PyStr "Unknown") ], 200).
Proof. reflexivity. Qed.

Example health_fixed :
  fst (health_check chain_request [])
  = Ret ([ ("status", PyStr "healthy"); ("service", PyStr "ip-reverse-app") ], 200).
Proof. reflexivity. Qed.

Example reverse_ip_v6 :
  fst (reverse_ip (PyStr "::1") []) = Ret "Invalid IP format: ::1".
Proof. reflexivity. Qed.

Example header_name_case :
  headers_get (mkRequest "GET" "/" [("x-real-ip", "1.1.1.1")] PyNone) "X-Real-IP"
  = PyStr "1.1.1.1".
Proof. reflexivity. Qed.

(** * Further properties *)

(** ** More on strings *)

Lemma append_inj_l (p x y : string) : p ++ x = p ++ y -> x = y.
Proof.
  induction p as [|c p IH]; simpl; [auto|].
  intros [= H]. auto.
Qed.

Lemma length_append (a b : string) :
  String.length (a ++ b) = String.length a + String.length b.
Proof.
  induction a as [|x a IH]; simpl; [reflexivity | now rewrite IH].
Qed.

(** A separator-free prefix goes into the first piece. *)
Lemma split_app_free sep p s :
  free sep p ->
  split sep (p ++ s)
  = match split sep s with
    | [] => [p]
    | w :: ws => (p ++ w) :: ws
    end.
Proof.
  unfold free. induction p as [|x p IH]; simpl.
  - intros _. destruct (split_inv sep s) as (w & ws & E). rewrite E. reflexivity.
  - destruct (Ascii.eqb x sep); [discriminate|].
    intros H. rewrite (IH H).
    destruct (split sep s); reflexivity.
Qed.

Lemma split_app_free_length sep p s :
  free sep p -> length (split sep (p ++ s)) = length (split sep s).
Proof.
  intros H. rewrite (split_app_free sep p s H).
  destruct (split_inv sep s) as (w & ws & E). rewrite E. reflexivity.
Qed.

(** One piece more than there are separators. *)
Lemma split_length_count sep s : length (split sep s) = S (count sep s).
Proof.
  induction s as [|x s IH]; simpl; [reflexivity|].
  destruct (Ascii.eqb x sep); simpl; [now rewrite IH|].
  destruct (split_inv sep s) as (w & ws & E). rewrite E in *. exact IH.
Qed.

Lemma join_length sep l :
  l <> [] ->
  S (String.length (join (String sep EmptyString) l)) = padded_length l.
Proof.
  unfold padded_length.
  induction l as [|w l IH]; [congruence|]. intros _.
  destruct l as [|w' l].
  - simpl. lia.
  - rewrite join_cons2, length_append.
    change (String.length (String sep EmptyString ++ join (String sep EmptyString) (w' :: l)))
      with (S (String.length (join (String sep EmptyString) (w' :: l)))).
    rewrite IH by discriminate. simpl. lia.
Qed.

Lemma padded_length_rev l : padded_length (rev l) = padded_length l.
Proof.
  unfold padded_length. induction l as [|w l IH]; [reflexivity|].
  simpl rev. rewrite map_app, list_sum_app, IH. simpl. lia.
Qed.

Lemma all_space_free_comma s : all_space s = true -> free "," s.
Proof.
  unfold free. induction s as [|x s IH]; simpl; [reflexivity|].
  intros H. apply andb_prop in H as [Hx Hs].
  destruct (Ascii.eqb x ",") eqn:E; [|auto].
  apply Ascii.eqb_eq in E. subst x. discriminate.
Qed.

Lemma rstrip_all_space s : all_space s = true -> rstrip s = EmptyString.
Proof.
  induction s as [|x s IH]; simpl; [reflexivity|].
  intros H. apply andb_prop in H as [Hx Hs].
  rewrite (IH Hs), Hx. reflexivity.
Qed.

Lemma strip_all_space s : all_space s = true -> strip s = EmptyString.
Proof.
  intros H. unfold strip. rewrite (rstrip_all_space s H). reflexivity.
Qed.

Lemma strip_free sep s : free sep s -> free sep (strip s).
Proof.
  unfold free. intros H.
  destruct (strip_decompose s) as (l & r & E & _ & _).
  rewrite E, !contains_app in H.
  destruct (contains sep (strip s)); [|reflexivity].
  rewrite orb_true_r in H. discriminate.
Qed.

(** ** The resolver *)

Lemma none_present_cons r h hs :
  truthy (headers_get r h) = false -> none_present r hs -> none_present r (h :: hs).
Proof.
  intros Hh Hhs h' [<-|Hin]; [exact Hh | exact (Hhs h' Hin)].
Qed.

(** Either no candidate of [hs] has a non-empty value, or there is a
    first one that has. *)
Lemma candidates_cases r hs :
  none_present r hs \/
  exists pre h post v,
    hs = (pre ++ h :: post)%list /\ none_present r pre /\
    headers_get r h = PyStr v /\ v <> "".
Proof.
  induction hs as [|h hs IH].
  - left. intros ? [].
  - destruct (truthy (headers_get r h)) eqn:T.
    + right. destruct (truthy_inv _ T) as (v & Hv & Hne).
      exists [], h, hs, v. repeat split; try assumption. intros ? [].
    + destruct IH as [IH | (pre & h' & post & v & E & Hpre & Hh & Hv)].
      * left. now apply none_present_cons.
      * right. exists (h :: pre), h', post, v. subst hs.
        repeat split; try assumption. now apply none_present_cons.
Qed.

Lemma matched_ip_free v : free "," (matched_ip v).
Proof.
  unfold matched_ip. destruct (contains "," v) eqn:Hc; [|exact Hc].
  destruct (split_first "," v Hc) as (first & rest & _ & Hf & Hs).
  rewrite Hs. simpl hd. now apply strip_free.
Qed.

(** X1. [get_client_ip] never raises (the subscript [split(',')[0]] is
    always in range, no method is called on [None]) and adds exactly
    one record to the log, at level INFO. *)
Theorem resolver_returns_one_info_record (r : Request) (lg : log) :
  exists ip m, get_client_ip r lg = (Ret ip, (lg ++ [LogRecord INFO m])%list).
Proof.
  destruct (candidates_cases r headers_to_check)
    as [H | (pre & h & post & v & E & Hpre & Hh & Hv)].
  - rewrite (get_client_ip_fallback r lg H). eauto.
  - rewrite (get_client_ip_hit r pre h post v lg E Hpre Hh Hv). eauto.
Qed.

(** X2. [get_client_ip] returns [None] exactly when no candidate header
    has a non-empty value and [remote_addr] is [None]: a matched header
    always gives a string. *)
Theorem resolver_none_iff (r : Request) (lg : log) :
  fst (get_client_ip r lg) = Ret PyNone
  <-> none_present r headers_to_check /\ remote_addr r = PyNone.
Proof.
  split.
  - destruct (candidates_cases r headers_to_check)
      as [H | (pre & h & post & v & E & Hpre & Hh & Hv)].
    + rewrite (get_client_ip_fallback r lg H). simpl. intros [= Ha]. auto.
    + rewrite (get_client_ip_hit r pre h post v lg E Hpre Hh Hv). discriminate.
  - intros [H Ha]. rewrite (get_client_ip_fallback r lg H), Ha. reflexivity.
Qed.

Lemma resolver_none_iff_witness :
  fst (get_client_ip no_ip_request []) = Ret PyNone.
Proof.
  apply (proj2 (resolver_none_iff no_ip_request [])).
  split; [none_present_tac | reflexivity].
Defined.

Lemma for_header_ext r r' hs lg :
  (forall h, In h hs -> headers_get r h = headers_get r' h) ->
  for_header r hs lg = for_header r' hs lg.
Proof.
  induction hs as [|h hs IH]; intros H; [reflexivity|].
  assert (Hh : headers_get r h = headers_get r' h) by (apply H; now left).
  assert (Hhs : forall h', In h' hs -> headers_get r h' = headers_get r' h')
    by (intros h' Hin; apply H; now right).
  destruct (truthy (headers_get r h)) eqn:T.
  - destruct (truthy_inv _ T) as (v & Hv & Hne).
    rewrite (for_header_cons_hit r h hs v lg Hv Hne).
    rewrite Hh in Hv.
    rewrite (for_header_cons_hit r' h hs v lg Hv Hne). reflexivity.
  - rewrite (for_header_cons_miss r h hs lg T).
    rewrite Hh in T.
    rewrite (for_header_cons_miss r' h hs lg T). auto.
Qed.

(** X3. [get_client_ip] reads nothing of the request but the five
    candidate headers and [remote_addr]: two requests that agree on
    these resolve alike, whatever their method, path and other
    headers. *)
Theorem resolver_reads_only_candidates (r r' : Request) (lg : log) :
  (forall h, In h headers_to_check -> headers_get r h = headers_get r' h) ->
  remote_addr r = remote_addr r' ->
  get_client_ip r lg = get_client_ip r' lg.
Proof.
  intros H Ha. unfold get_client_ip, bind.
  rewrite (for_header_ext r r' headers_to_check lg H), Ha. reflexivity.
Qed.

Lemma resolver_reads_only_candidates_witness :
  get_client_ip chain_request []
  = get_client_ip
      (mkRequest "DELETE" "/x/y"
         [("User-Agent", "curl/8.0"); ("X-Forwarded-For", "203.0.113.5, 70.41.3.18");
          ("Forwarded", "for=8.8.8.8")] (PyStr "10.0.0.1")) [].
Proof.
  apply resolver_reads_only_candidates; [|reflexivity].
  intros h Hin; simpl in Hin.
  repeat (destruct Hin as [<-|Hin]; [reflexivity|]). contradiction.
Defined.

(** X4. An address taken from a header never contains a comma: with a
    comma in the value only the part before the first one is kept. *)
Theorem header_ip_has_no_comma
    (r : Request) (pre post : list string) (h v : string) (lg : log) :
  headers_to_check = (pre ++ h :: post)%list ->
  none_present r pre ->
  headers_get r h = PyStr v -> v <> "" ->
  exists ip, fst (get_client_ip r lg) = Ret (PyStr ip) /\ contains "," ip = false.
Proof.
  intros E Hpre Hh Hv. exists (matched_ip v).
  rewrite (get_client_ip_hit r pre h post v lg E Hpre Hh Hv).
  split; [reflexivity | apply matched_ip_free].
Qed.

Lemma header_ip_has_no_comma_witness :
  exists ip, fst (get_client_ip chain_request []) = Ret (PyStr ip)
             /\ contains "," ip = false.
Proof.
  apply (header_ip_has_no_comma chain_request
           [] ["X-Real-IP"; "X-Forwarded"; "X-Cluster-Client-IP"; "CF-Connecting-IP"]
           "X-Forwarded-For" "203.0.113.5, 70.41.3.18" []);
    [reflexivity | none_present_tac | reflexivity | discriminate].
Defined.

(** X5. When the first matching header's value starts with a comma, or
    with white space and then a comma, the resolver returns the empty
    string: it does not go on to the later candidates or to
    [remote_addr]. *)
Theorem blank_first_element_gives_empty
    (r : Request) (pre post : list string) (h l rest : string) (lg : log) :
  headers_to_check = (pre ++ h :: post)%list ->
  none_present r pre ->
  headers_get r h = PyStr (l ++ "," ++ rest) ->
  all_space l = true ->
  get_client_ip r lg
  = (Ret (PyStr ""), (lg ++ [LogRecord INFO ("Found IP in " ++ h ++ ": ")])%list).
Proof.
  intros E Hpre Hh Hl.
  assert (Hv : l ++ "," ++ rest <> "") by (destruct l; discriminate).
  rewrite (get_client_ip_hit r pre h post _ lg E Hpre Hh Hv).
  assert (Hm : matched_ip (l ++ "," ++ rest) = "").
  { unfold matched_ip. rewrite contains_app. simpl contains.
    rewrite orb_true_r.
    change (l ++ "," ++ rest) with (l ++ String "," rest).
    rewrite split_app_sep by now apply all_space_free_comma.
    simpl hd. now apply strip_all_space. }
  rewrite Hm. reflexivity.
Qed.

Lemma blank_first_element_gives_empty_witness :
  get_client_ip blank_first_request []
  = (Ret (PyStr ""), [LogRecord INFO "Found IP in X-Forwarded-For: "]).
Proof.
  apply (blank_first_element_gives_empty blank_first_request
           [] ["X-Real-IP"; "X-Forwarded"; "X-Cluster-Client-IP"; "CF-Connecting-IP"]
           "X-Forwarded-For" " " " 1.2.3.4" []);
    [reflexivity | none_present_tac | reflexivity | reflexivity].
Defined.

(** ** The reverser *)

Lemma reversed_segments x :
  length (split "." x) = 4 ->
  split "." (join "." (rev (split "." x))) = rev (split "." x).
Proof.
  intros H. apply split_join.
  - intros N. apply (f_equal (@length string)) in N.
    rewrite length_rev, H in N. discriminate.
  - apply Forall_rev, split_segments_free.
Qed.

Lemma invalid_format_segments s :
  length (split "." ("Invalid IP format: " ++ s)) = length (split "." s).
Proof. apply split_app_free_length. reflexivity. Qed.

Lemma Ret_inj {A} (a b : A) : Ret a = Ret b -> a = b.
Proof. congruence. Qed.

(** X6. On a string with four segments the result of [reverse_ip] has
    the segments of the input in reverse order (so four of them again)
    and the length of the input. *)
Theorem reverse_ip_segments_reversed (x : string) (lg : log) :
  length (split "." x) = 4 ->
  exists y,
    reverse_ip (PyStr x) lg = (Ret y, lg) /\
    split "." y = rev (split "." x) /\
    String.length y = String.length x.
Proof.
  intros H. exists (join "." (rev (split "." x))).
  split; [now apply reverse_ip_four|].
  split; [now apply reversed_segments|].
  apply eq_add_S. rewrite join_length, padded_length_rev.
  - rewrite <- (join_length "." (split "." x)) by apply split_not_nil.
    now rewrite join_split.
  - intros N. apply (f_equal (@length string)) in N.
    rewrite length_rev, H in N. discriminate.
Qed.

Lemma reverse_ip_segments_reversed_witness :
  exists y,
    reverse_ip (PyStr "10.20.30.40") [] = (Ret y, []) /\
    split "." y = ["40"; "30"; "20"; "10"] /\
    String.length y = 11.
Proof.
  apply (reverse_ip_segments_reversed "10.20.30.40" []). reflexivity.
Defined.

(** X7. [reverse_ip] keeps the number of dot-separated segments of a
    string input, on both of its branches: whether an answer is a
    reversal or a message can be read off its number of segments. *)
Theorem reverse_ip_keeps_segment_count (s : string) (lg : log) :
  exists y,
    reverse_ip (PyStr s) lg = (Ret y, lg) /\
    length (split "." y) = length (split "." s).
Proof.
  destruct (Nat.eq_dec (length (split "." s)) 4) as [E|E].
  - exists (join "." (rev (split "." s))).
    split; [now apply reverse_ip_four|].
    rewrite reversed_segments by assumption. apply length_rev.
  - exists ("Invalid IP format: " ++ s).
    split; [now apply reverse_ip_not_four|].
    apply invalid_format_segments.
Qed.

(** X8. [reverse_ip] is injective: two inputs (strings or [None]) with
    the same result are the same input. *)
Theorem reverse_ip_injective (v w : pyval) (lg lg' : log) :
  fst (reverse_ip v lg) = fst (reverse_ip w lg') -> v = w.
Proof.
  assert (four_not_none : forall s l,
             length (split "." s) = 4 ->
             fst (reverse_ip (PyStr s) l) <> Ret "Error processing IP: None").
  { intros s l E. rewrite reverse_ip_four by assumption. cbn [fst]. intros H. apply Ret_inj in H.
    apply (f_equal (fun y => length (split "." y))) in H.
    rewrite reversed_segments, length_rev, E in H by assumption. discriminate. }
  assert (other_not_none : forall s l,
             length (split "." s) <> 4 ->
             fst (reverse_ip (PyStr s) l) <> Ret "Error processing IP: None").
  { intros s l E. rewrite reverse_ip_not_four by assumption. cbn [fst]. discriminate. }
  assert (four_not_other : forall s t l l',
             length (split "." s) = 4 -> length (split "." t) <> 4 ->
             fst (reverse_ip (PyStr s) l) <> fst (reverse_ip (PyStr t) l')).
  { intros s t l l' Es Et.
    rewrite reverse_ip_four, reverse_ip_not_four by assumption. cbn [fst]. intros H. apply Ret_inj in H.
    apply (f_equal (fun y => length (split "." y))) in H.
    rewrite reversed_segments, length_rev, Es, invalid_format_segments in H
      by assumption.
    congruence. }
  destruct v as [|s], w as [|t]; intros H.
  - reflexivity.
  - exfalso. rewrite reverse_ip_none in H. cbn [fst] in H. symmetry in H.
    destruct (Nat.eq_dec (length (split "." t)) 4) as [E|E];
      [exact (four_not_none t lg' E H) | exact (other_not_none t lg' E H)].
  - exfalso. rewrite (reverse_ip_none lg') in H. cbn [fst] in H.
    destruct (Nat.eq_dec (length (split "." s)) 4) as [E|E];
      [exact (four_not_none s lg E H) | exact (other_not_none s lg E H)].
  - f_equal.
    destruct (Nat.eq_dec (length (split "." s)) 4) as [Es|Es];
      destruct (Nat.eq_dec (length (split "." t)) 4) as [Et|Et].
    + rewrite !reverse_ip_four in H by assumption. cbn [fst] in H.
      apply Ret_inj in H. apply (f_equal (split ".")) in H.
      rewrite !reversed_segments in H by assumption.
      apply (f_equal (@rev string)) in H. rewrite !rev_involutive in H.
      rewrite <- (join_split "." s), <- (join_split "." t), H. reflexivity.
    + exfalso. exact (four_not_other s t lg lg' Es Et H).
    + exfalso. symmetry in H. exact (four_not_other t s lg' lg Et Es H).
    + rewrite !reverse_ip_not_four in H by assumption. cbn [fst] in H.
      apply Ret_inj in H. exact (append_inj_l _ _ _ H).
Qed.

Lemma reverse_ip_injective_witness :
  PyStr "1.2.3.4" = PyStr ("1.2" ++ ".3.4").
Proof.
  apply (reverse_ip_injective (PyStr "1.2.3.4") (PyStr ("1.2" ++ ".3.4")) [] []).
  reflexivity.
Defined.

(** X9. A malformed-format answer is malformed input itself: when [s]
    does not have four segments, reversing the answer for [s] puts a
    second prefix before it. *)
Theorem reverse_ip_twice_invalid (s : string) (lg : log) :
  length (split "." s) <> 4 ->
  (y <- reverse_ip (PyStr s) ;; reverse_ip (PyStr y)) lg
  = (Ret ("Invalid IP format: Invalid IP format: " ++ s), lg).
Proof.
  intros H. unfold bind. rewrite reverse_ip_not_four by assumption.
  rewrite reverse_ip_not_four by (rewrite invalid_format_segments; assumption).
  reflexivity.
Qed.

Lemma reverse_ip_twice_invalid_witness :
  (y <- reverse_ip (PyStr "::1") ;; reverse_ip (PyStr y)) []
  = (Ret "Invalid IP format: Invalid IP format: ::1", []).
Proof.
  apply (reverse_ip_twice_invalid "::1" []). simpl. lia.
Defined.

(** X10. [reverse_ip] reverses exactly the strings with three dots:
    the test on the number of segments is a test on the number of
    dots. *)
Theorem reverse_ip_three_dots (s : string) (lg : log) :
  reverse_ip (PyStr s) lg
  = (Ret (if (count "." s =? 3)%nat
          then join "." (rev (split "." s))
          else "Invalid IP format: " ++ s), lg).
Proof.
  destruct (count "." s =? 3)%nat eqn:E.
  - apply Nat.eqb_eq in E. apply reverse_ip_four.
    rewrite split_length_count, E. reflexivity.
  - apply Nat.eqb_neq in E. apply reverse_ip_not_four.
    rewrite split_length_count. lia.
Qed.

(** ** The handlers *)

Lemma reverse_ip_str_log s lg :
  exists out, reverse_ip (PyStr s) lg = (Ret out, lg).
Proof.
  destruct (Nat.eq_dec (length (split "." s)) 4) as [E|E].
  - rewrite reverse_ip_four by assumption. eauto.
  - rewrite reverse_ip_not_four by assumption. eauto.
Qed.

Lemma get_client_ip_with_path p r lg :
  get_client_ip (with_path p r) lg = get_client_ip r lg.
Proof.
  unfold get_client_ip, bind.
  rewrite (for_header_ext (with_path p r) r headers_to_check lg);
    [reflexivity | intros; reflexivity].
Qed.

(** X11. The answer of the root handler, field by field: [original_ip]
    is what [get_client_ip] returned, [reversed_ip] is what
    [reverse_ip] made of it, [method] and [path] are the request's,
    [user_agent] is the User-Agent header or ["Unknown"] when there is
    none; the handler adds one INFO record after those of the two
    calls. *)
Theorem handle_request_response (r : Request) (lg : log) :
  exists ip reversed lg1 lg2,
    get_client_ip r lg = (Ret ip, lg1) /\
    reverse_ip ip lg1 = (Ret reversed, lg2) /\
    handle_request r lg
    = (Ret ([ ("original_ip", ip);
              ("reversed_ip", PyStr reversed);
              ("method", PyStr (method r));
              ("path", PyStr (path r));
              ("user_agent",
               match lookup "User-Agent" (headers r) with
               | Some ua => PyStr ua
               | None => PyStr "Unknown"
               end) ], 200),
       (lg2 ++ [LogRecord INFO
                  ("Request from " ++ format ip ++ " -> Reversed: " ++ reversed)])%list).
Proof.
  destruct (get_client_ip_returns r lg) as (ip & lg1 & E1).
  destruct (reverse_ip_returns ip lg1) as (reversed & lg2 & E2).
  exists ip, reversed, lg1, lg2. split; [exact E1|]. split; [exact E2|].
  unfold handle_request, bind. rewrite E1, E2. reflexivity.
Qed.

(** X12. The catch-all handler on the matched part [p] answers as the
    root handler does for the same request on path [/p]. *)
Theorem catch_all_as_root (p : string) (r : Request) (lg : log) :
  fst (catch_all p r lg) = fst (handle_request (with_path ("/" ++ p) r) lg).
Proof.
  unfold catch_all, handle_request, bind.
  rewrite get_client_ip_with_path.
  destruct (get_client_ip_returns r lg) as (ip & lg1 & E1). rewrite E1.
  destruct (reverse_ip_returns ip lg1) as (reversed & lg2 & E2). rewrite E2.
  reflexivity.
Qed.

(** X13. The root handler logs at level ERROR exactly when there is no
    client address at all: no candidate header with a non-empty value
    and no [remote_addr]. It only appends to the log. *)
Theorem handle_request_error_logged_iff (r : Request) (lg : log) :
  exists added,
    snd (handle_request r lg) = (lg ++ added)%list /\
    (existsb is_error added = true
     <-> none_present r headers_to_check /\ remote_addr r = PyNone).
Proof.
  unfold handle_request, bind.
  destruct (candidates_cases r headers_to_check)
    as [H | (pre & h & post & v & E & Hpre & Hh & Hv)].
  - rewrite (get_client_ip_fallback r lg H).
    destruct (remote_addr r) as [|s] eqn:Ha.
    + rewrite reverse_ip_none. unfold logger_info, jsonify, ret. cbn [snd].
      eexists. split.
      * rewrite <- !app_assoc. reflexivity.
      * simpl. tauto.
    + destruct (reverse_ip_str_log s
                  (lg ++ [LogRecord INFO ("Using remote_addr: " ++ format (PyStr s))])%list)
        as (out & E).
      rewrite E. unfold logger_info, jsonify, ret. cbn [snd].
      eexists. split.
      * rewrite <- !app_assoc. reflexivity.
      * simpl. split; [discriminate | intros [_ N]; discriminate].
  - rewrite (get_client_ip_hit r pre h post v lg E Hpre Hh Hv).
    destruct (reverse_ip_str_log (matched_ip v)
                (lg ++ [LogRecord INFO ("Found IP in " ++ h ++ ": " ++ matched_ip v)])%list)
      as (out & E').
    rewrite E'. unfold logger_info, jsonify, ret. cbn [snd].
    eexists. split.
    + rewrite <- !app_assoc. reflexivity.
    + simpl. split; [discriminate|]. intros [N _]. exfalso.
      assert (T : truthy (headers_get r h) = false).
      { apply N. rewrite E. apply in_or_app. right. now left. }
      rewrite Hh, (truthy_str v Hv) in T. discriminate.
Qed.

(** X14. End to end: when the first candidate header with a non-empty
    value holds a dotted quad [a.b.c.d] (segments without dot or
    comma), the root handler answers 200 with [original_ip] [a.b.c.d]
    and [reversed_ip] [d.c.b.a]. *)
Theorem handle_request_reverses_header
    (r : Request) (pre post : list string) (h a b c d : string) (lg : log) :
  headers_to_check = (pre ++ h :: post)%list ->
  none_present r pre ->
  headers_get r h = PyStr (a ++ "." ++ b ++ "." ++ c ++ "." ++ d) ->
  free "." a -> free "." b -> free "." c -> free "." d ->
  contains "," (a ++ "." ++ b ++ "." ++ c ++ "." ++ d) = false ->
  fst (handle_request r lg)
  = Ret ([ ("original_ip", PyStr (a ++ "." ++ b ++ "." ++ c ++ "." ++ d));
           ("reversed_ip", PyStr (d ++ "." ++ c ++ "." ++ b ++ "." ++ a));
           ("method", PyStr (method r));
           ("path", PyStr (path r));
           ("user_agent", headers_get_default r "User-Agent" "Unknown") ], 200).
Proof.
  intros E Hpre Hh Ha Hb Hc Hd Hcomma.
  assert (Hv : a ++ "." ++ b ++ "." ++ c ++ "." ++ d <> "")
    by (destruct a; discriminate).
  pose proof (split_dotted_quad a b c d Ha Hb Hc Hd) as Es.
  unfold handle_request, bind.
  rewrite (get_client_ip_hit r pre h post _ lg E Hpre Hh Hv).
  unfold matched_ip. rewrite Hcomma.
  rewrite reverse_ip_four by (rewrite Es; reflexivity).
  rewrite Es. reflexivity.
Qed.

Lemma handle_request_reverses_header_witness :
  fst (handle_request real_ip_request [])
  = Ret ([ ("original_ip", PyStr "198.51.100.7");
           ("reversed_ip", PyStr "7.100.51.198");
           ("method", PyStr "PUT");
           ("path", PyStr "/");
           ("user_agent", PyStr "probe") ], 200).
Proof.
  apply (handle_request_reverses_header real_ip_request
           ["X-Forwarded-For"] ["X-Forwarded"; "X-Cluster-Client-IP"; "CF-Connecting-IP"]
           "X-Real-IP" "198" "51" "100" "7" []);
    [reflexivity | none_present_tac | reflexivity
     | reflexivity | reflexivity | reflexivity | reflexivity | reflexivity].
Defined.
